(** * lmdb++.h: error classification and the procedural wrappers

    A shallow embedding of [<lmdb++.h>], the C++11 wrapper for LMDB.

    - The engine header [<lmdb.h>] is external: its status constants and
      [mdb_strerror] are the fields of the class [lmdb_h].
    - An exception object is a record; its dynamic class is a tag.
    - A wrapper is a small program over the engine's entry points: a tree
      whose nodes are engine calls, whose leaves are a normal return or a
      thrown exception.  [run] interprets such a tree against any engine
      and records the calls that were made, in order.
    - The [static thread_local] buffer of [error::what] is a finite map from
      threads to buffer contents; the pointer [what] returns designates the
      calling thread's entry. *)

From stdpp Require Import base numbers option list strings gmap.

Open Scope string_scope.
Open Scope Z_scope.

(** ** Machine types *)

(** [int]: the codes are compared and stored, never computed with, so the
    embedding needs no wrap-around. *)
Definition int : Type := Z.

(** [unsigned int], [MDB_dbi], [std::size_t], [mdb_mode_t]. *)
Definition unsigned_int : Type := Z.
Definition MDB_dbi : Type := Z.
Definition size_t : Type := Z.
Definition mdb_mode_t : Type := Z.

(** Opaque engine handles ([MDB_env*], [MDB_txn*]) and the out-parameters
    that receive them ([MDB_env**], [MDB_txn**]): addresses the wrapper
    passes on and never looks into. *)
Definition MDB_env_ptr : Type := Z.
Definition MDB_txn_ptr : Type := Z.
Definition MDB_env_ptr_ptr : Type := Z.
Definition MDB_txn_ptr_ptr : Type := Z.

(** A [const char*] argument, given by the bytes before its terminator. *)
Definition c_string : Type := string.

(** ** The engine header *)

(** What [<lmdb.h>] supplies to the error classes: the three status
    constants the wrapper names, and the textual description of a code. *)
Class lmdb_h : Type := {
  MDB_SUCCESS : int;
  MDB_KEYEXIST : int;
  MDB_NOTFOUND : int;
  mdb_strerror : int → c_string
}.

(** The entry points of the engine the wrapper calls, with their
    arguments as passed, indexed by their C return type. *)
Inductive mdb_call : Type → Type :=
| mdb_env_create (env : MDB_env_ptr_ptr) : mdb_call int
| mdb_env_open (env : MDB_env_ptr) (path : c_string)
               (flags : unsigned_int) (mode : mdb_mode_t) : mdb_call int
| mdb_env_close (env : MDB_env_ptr) : mdb_call unit
| mdb_env_set_flags (env : MDB_env_ptr) (flags : unsigned_int)
                    (onoff : int) : mdb_call int
| mdb_env_set_mapsize (env : MDB_env_ptr) (size : size_t) : mdb_call int
| mdb_env_set_maxreaders (env : MDB_env_ptr)
                         (readers : unsigned_int) : mdb_call int
| mdb_env_set_maxdbs (env : MDB_env_ptr) (dbs : MDB_dbi) : mdb_call int
| mdb_env_sync (env : MDB_env_ptr) (force : int) : mdb_call int
| mdb_txn_begin (env : MDB_env_ptr) (parent : MDB_txn_ptr)
                (flags : unsigned_int) (txn : MDB_txn_ptr_ptr) : mdb_call int
| mdb_txn_env (txn : MDB_txn_ptr) : mdb_call MDB_env_ptr
| mdb_txn_commit (txn : MDB_txn_ptr) : mdb_call int
| mdb_txn_abort (txn : MDB_txn_ptr) : mdb_call unit
| mdb_txn_reset (txn : MDB_txn_ptr) : mdb_call unit
| mdb_txn_renew (txn : MDB_txn_ptr) : mdb_call int.

(** One call as it appears in the record of a run. *)
Inductive event : Type := Event (X : Type) (c : mdb_call X).

Arguments Event {X} c.

(** An engine: some state of its own, and for every entry point the value
    it returns and the state it leaves.  A C entry point has no other way
    out: it cannot throw. *)
Definition engine (W : Type) : Type := ∀ X, mdb_call X → W → X * W.

(** ** Programs over the engine *)

(** A wrapper body: it returns, throws, or calls the engine and goes on
    with the value the engine returned. *)
Inductive prog (E A : Type) : Type :=
| Return (a : A)
| Throw (e : E)
| Call (X : Type) (c : mdb_call X) (k : X → prog E A).

Arguments Return {E A} a.
Arguments Throw {E A} e.
Arguments Call {E A X} c k.

Fixpoint prog_bind {E A B} (f : A → prog E B) (p : prog E A) : prog E B :=
  match p with
  | Return a => f a
  | Throw e => Throw e
  | Call c k => Call c (λ x, prog_bind f (k x))
  end.

#[global] Instance prog_ret {E} : MRet (prog E) := λ A a, Return a.
#[global] Instance prog_mbind {E} : MBind (prog E) := λ A B f p, prog_bind f p.

(** A plain call of an entry point. *)
Definition call {E X} (c : mdb_call X) : prog E X := Call c Return.

(** How a wrapper call ends. *)
Inductive outcome (E A : Type) : Type :=
| Normal (a : A)
| Thrown (e : E).

Arguments Normal {E A} a.
Arguments Thrown {E A} e.

(** What a run leaves behind: how it ended, the engine's state, and the
    engine calls made, oldest first. *)
Record result (E W A : Type) : Type := Result {
  outcome_of : outcome E A;
  state_of : W;
  calls_of : list event
}.

Arguments Result {E W A} _ _ _.
Arguments outcome_of {E W A} _.
Arguments state_of {E W A} _.
Arguments calls_of {E W A} _.

Fixpoint run {E W A} (h : engine W) (p : prog E A) (w : W) : result E W A :=
  match p with
  | Return a => Result (Normal a) w []
  | Throw e => Result (Thrown e) w []
  | Call c k =>
      let r := h _ c w in
      let rest := run h (k r.1) r.2 in
      Result (outcome_of rest) (state_of rest) (Event c :: calls_of rest)
  end.

Module lmdb.

(** ** Exceptions *)

(** The dynamic class of an exception object. *)
Inductive error_class : Type :=
| class_error
| class_key_exist_error
| class_not_found_error.

(** [class error : public std::runtime_error { const int _code; }]: the
    [runtime_error] base holds a copy of the constructor's string. *)
Record error : Type := Build_error {
  dynamic_class : error_class;
  runtime_error_what : c_string;
  _code : int
}.

(** [error(origin, rc) : runtime_error{origin}, _code{rc} {}], and the
    constructors the two derived classes inherit by [using error::error]. *)
Definition mk_error (origin : c_string) (rc : int) : error :=
  Build_error class_error origin rc.
Definition mk_key_exist_error (origin : c_string) (rc : int) : error :=
  Build_error class_key_exist_error origin rc.
Definition mk_not_found_error (origin : c_string) (rc : int) : error :=
  Build_error class_not_found_error origin rc.

(** [int code() const noexcept { return _code; }] *)
Definition code (e : error) : int := _code e.

(** [const char* origin() const noexcept { return runtime_error::what(); }] *)
Definition origin (e : error) : c_string := runtime_error_what e.

(** *** The message *)

Definition thread : Type := nat.

(** [sizeof(buffer)] for [static thread_local char buffer[1024]]. *)
Definition buffer_size : nat := 1024.

(** [std::snprintf(buffer, size, "%s: %s", a, b)] as a function of the
    buffer's old content: with [size = 0] nothing is written, otherwise the
    buffer holds the first [size - 1] bytes of the formatted text, then the
    terminator. *)
Definition snprintf_s_colon_s (old : c_string) (size : nat) (a b : c_string)
  : c_string :=
  match size with
  | O => old
  | S n => String.substring 0 n (a +:+ ": " +:+ b)
  end.

(** The [what] buffers of all threads.  A thread that has not called [what]
    yet has a zero-initialised buffer, the empty C string. *)
Definition read_buffer (σ : gmap thread c_string) (t : thread) : c_string :=
  default "" (σ !! t).

(** The [const char*] that [what] returns: the address of the calling
    thread's buffer. *)
Inductive message_ptr : Type := buffer_of (t : thread).

(** Reading the C string behind such a pointer. *)
Definition deref (p : message_ptr) (σ : gmap thread c_string) : c_string :=
  match p with buffer_of t => read_buffer σ t end.

Section with_header.
Context `{lmdb_h}.

(** [virtual const char* what() const noexcept], called on thread [t]. *)
Definition what (e : error) (t : thread) (σ : gmap thread c_string)
  : message_ptr * gmap thread c_string :=
  let buffer :=
    snprintf_s_colon_s (read_buffer σ t) buffer_size
                       (origin e) (mdb_strerror (code e)) in
  (buffer_of t, <[t := buffer]> σ).

(** *** The classifier *)

(** [[[noreturn]] static inline void raise(const char* origin, int rc)]:
    the [switch] on [rc]. *)
Definition raise (origin : c_string) (rc : int) : prog error unit :=
  if rc =? MDB_KEYEXIST then Throw (mk_key_exist_error origin rc)
  else if rc =? MDB_NOTFOUND then Throw (mk_not_found_error origin rc)
  else Throw (mk_error origin rc).

(** ** Procedural interface: environment *)

(** A parameter with a default argument is an [option]: [None] is the call
    that leaves the argument out. *)

Definition env_create (env : MDB_env_ptr_ptr) : prog error unit :=
  rc ← call (mdb_env_create env);
  if negb (rc =? MDB_SUCCESS) then raise "mdb_env_create" rc else mret ().

Definition env_open (env : MDB_env_ptr) (path : c_string)
    (flags : unsigned_int) (mode : mdb_mode_t) : prog error unit :=
  rc ← call (mdb_env_open env path flags mode);
  if negb (rc =? MDB_SUCCESS) then raise "mdb_env_open" rc else mret ().

Definition env_close (env : MDB_env_ptr) : prog error unit :=
  call (mdb_env_close env).

(** [const bool onoff = true]; the engine receives [onoff ? 1 : 0]. *)
Definition env_set_flags (env : MDB_env_ptr) (flags : unsigned_int)
    (onoff : option bool) : prog error unit :=
  let onoff := default true onoff in
  rc ← call (mdb_env_set_flags env flags (if onoff then 1 else 0));
  if negb (rc =? MDB_SUCCESS) then raise "mdb_env_set_flags" rc else mret ().

Definition env_set_map_size (env : MDB_env_ptr) (size : size_t)
  : prog error unit :=
  rc ← call (mdb_env_set_mapsize env size);
  if negb (rc =? MDB_SUCCESS) then raise "mdb_env_set_mapsize" rc else mret ().

Definition env_set_max_readers (env : MDB_env_ptr) (count : unsigned_int)
  : prog error unit :=
  rc ← call (mdb_env_set_maxreaders env count);
  if negb (rc =? MDB_SUCCESS) then raise "mdb_env_set_maxreaders" rc
  else mret ().

Definition env_set_max_dbs (env : MDB_env_ptr) (count : MDB_dbi)
  : prog error unit :=
  rc ← call (mdb_env_set_maxdbs env count);
  if negb (rc =? MDB_SUCCESS) then raise "mdb_env_set_maxdbs" rc else mret ().

(** [const bool force = true]; the [bool] converts to the engine's [int]. *)
Definition env_sync (env : MDB_env_ptr) (force : option bool)
  : prog error unit :=
  let force := default true force in
  rc ← call (mdb_env_sync env (Z.b2z force));
  if negb (rc =? MDB_SUCCESS) then raise "mdb_env_sync" rc else mret ().

(** ** Procedural interface: transactions *)

Definition txn_begin (env : MDB_env_ptr) (parent : MDB_txn_ptr)
    (flags : unsigned_int) (txn : MDB_txn_ptr_ptr) : prog error unit :=
  rc ← call (mdb_txn_begin env parent flags txn);
  if negb (rc =? MDB_SUCCESS) then raise "mdb_txn_begin" rc else mret ().

Definition txn_env (txn : MDB_txn_ptr) : prog error MDB_env_ptr :=
  call (mdb_txn_env txn).

Definition txn_commit (txn : MDB_txn_ptr) : prog error unit :=
  rc ← call (mdb_txn_commit txn);
  if negb (rc =? MDB_SUCCESS) then raise "mdb_txn_commit" rc else mret ().

Definition txn_abort (txn : MDB_txn_ptr) : prog error unit :=
  call (mdb_txn_abort txn).

Definition txn_reset (txn : MDB_txn_ptr) : prog error unit :=
  call (mdb_txn_reset txn).

Definition txn_renew (txn : MDB_txn_ptr) : prog error unit :=
  rc ← call (mdb_txn_renew txn);
  if negb (rc =? MDB_SUCCESS) then raise "mdb_txn_renew" rc else mret ().

End with_header.

End lmdb.

Import lmdb.

(** ** A header and an engine to run things on *)

(** The values LMDB's own header gives the three constants, with a short
    [mdb_strerror]; used where a statement is evaluated. *)
Definition sample_header : lmdb_h := {|
  MDB_SUCCESS := 0;
  MDB_KEYEXIST := -30799;
  MDB_NOTFOUND := -30798;
  mdb_strerror := λ rc,
    if rc =? 0 then "Successful return: 0"
    else if rc =? -30799 then "MDB_KEYEXIST: Key/data pair already exists"
    else if rc =? -30798 then "MDB_NOTFOUND: No matching key/data pair found"
    else "Unknown error"
|}.

(** An engine that answers from a script: each status-returning call takes
    the next status of the list (0 once the list is used up); its state is
    what is left of the script. *)
Definition scripted : engine (list int) := λ X c w,
  match c in mdb_call T return T * list int with
  | mdb_env_close _ | mdb_txn_abort _ | mdb_txn_reset _ => ((), w)
  | mdb_txn_env txn => (txn, w)
  | _ => (hd 0 w, tl w)
  end.

(** ** Vocabulary of the statements *)

(** The message a caller reads right after [e.what()] on thread [t]. *)
Definition message_of `{lmdb_h} (e : error) (t : thread)
    (σ : gmap thread c_string) : c_string :=
  let r := what e t σ in deref r.1 r.2.

(** The text ["%s: %s"] stands for, before it is fitted to the buffer. *)
Definition formatted `{lmdb_h} (e : error) : c_string :=
  origin e +:+ ": " +:+ mdb_strerror (code e).

(** The message obtained from [e1] on thread [t1] is still what its pointer
    reads after [e2.what()] has run on thread [t2]. *)
Definition message_survives `{lmdb_h} (e1 e2 : error) (t1 t2 : thread)
    (σ : gmap thread c_string) : Prop :=
  let r1 := what e1 t1 σ in
  let r2 := what e2 t2 r1.2 in
  deref r1.1 r2.2 = deref r1.1 r1.2.

(** [p] makes the one engine call [c], leaves the engine as that call left
    it, returns normally exactly when the status is [MDB_SUCCESS], and
    otherwise ends with what [raise name status] throws. *)
Definition status_checked `{lmdb_h} (p : prog error unit)
    (c : mdb_call int) (name : c_string) : Prop :=
  ∀ (W : Type) (h : engine W) (w : W),
    let rc := (h _ c w).1 in
    calls_of (run h p w) = [Event c] ∧
    state_of (run h p w) = (h _ c w).2 ∧
    (outcome_of (run h p w) = Normal () ↔ rc = MDB_SUCCESS) ∧
    (rc ≠ MDB_SUCCESS →
       ∃ e, outcome_of (run h p w) = Thrown e ∧ raise name rc = Throw e ∧
            code e = rc ∧ origin e = name).

(** [p] makes the one engine call [c], which returns nothing, and returns
    normally. *)
Definition forwarded (p : prog error unit) (c : mdb_call unit) : Prop :=
  ∀ (W : Type) (h : engine W) (w : W),
    outcome_of (run h p w) = Normal () ∧
    state_of (run h p w) = (h _ c w).2 ∧
    calls_of (run h p w) = [Event c].

(** Events that release a handle. *)
Definition closes (env : MDB_env_ptr) (ev : event) : bool :=
  match ev with
  | Event c =>
      match c with
      | mdb_env_close env' => bool_decide (env' = env)
      | _ => false
      end
  end.

Definition ends (txn : MDB_txn_ptr) (ev : event) : bool :=
  match ev with
  | Event c =>
      match c with
      | mdb_txn_commit txn' | mdb_txn_abort txn' => bool_decide (txn' = txn)
      | _ => false
      end
  end.

Definition count_events (f : event → bool) (l : list event) : nat :=
  length (List.filter f l).

(** No run of [p] hands the same environment to [mdb_env_close] twice,
    resp. the same transaction to [mdb_txn_commit]/[mdb_txn_abort] twice. *)
Definition closes_at_most_once (p : prog error unit) : Prop :=
  ∀ (W : Type) (h : engine W) (w : W) (env : MDB_env_ptr),
    (count_events (closes env) (calls_of (run h p w)) ≤ 1)%nat.

Definition ends_at_most_once (p : prog error unit) : Prop :=
  ∀ (W : Type) (h : engine W) (w : W) (txn : MDB_txn_ptr),
    (count_events (ends txn) (calls_of (run h p w)) ≤ 1)%nat.

(** An origin that does not fit the buffer. *)
Definition long_origin : c_string :=
  String.concat "" (replicate 1100 "a").

(** ** The interface as a whole *)

(** The C name of an entry point. *)
Definition mdb_name {X} (c : mdb_call X) : c_string :=
  match c with
  | mdb_env_create _ => "mdb_env_create"
  | mdb_env_open _ _ _ _ => "mdb_env_open"
  | mdb_env_close _ => "mdb_env_close"
  | mdb_env_set_flags _ _ _ => "mdb_env_set_flags"
  | mdb_env_set_mapsize _ _ => "mdb_env_set_mapsize"
  | mdb_env_set_maxreaders _ _ => "mdb_env_set_maxreaders"
  | mdb_env_set_maxdbs _ _ => "mdb_env_set_maxdbs"
  | mdb_env_sync _ _ => "mdb_env_sync"
  | mdb_txn_begin _ _ _ _ => "mdb_txn_begin"
  | mdb_txn_env _ => "mdb_txn_env"
  | mdb_txn_commit _ => "mdb_txn_commit"
  | mdb_txn_abort _ => "mdb_txn_abort"
  | mdb_txn_reset _ => "mdb_txn_reset"
  | mdb_txn_renew _ => "mdb_txn_renew"
  end.

(** A call of one of the thirteen [void] functions of the procedural
    interface, with its arguments. *)
Inductive wrapper_call : Type :=
| call_env_create (env : MDB_env_ptr_ptr)
| call_env_open (env : MDB_env_ptr) (path : c_string)
                (flags : unsigned_int) (mode : mdb_mode_t)
| call_env_close (env : MDB_env_ptr)
| call_env_set_flags (env : MDB_env_ptr) (flags : unsigned_int)
                     (onoff : option bool)
| call_env_set_map_size (env : MDB_env_ptr) (size : size_t)
| call_env_set_max_readers (env : MDB_env_ptr) (count : unsigned_int)
| call_env_set_max_dbs (env : MDB_env_ptr) (count : MDB_dbi)
| call_env_sync (env : MDB_env_ptr) (force : option bool)
| call_txn_begin (env : MDB_env_ptr) (parent : MDB_txn_ptr)
                 (flags : unsigned_int) (txn : MDB_txn_ptr_ptr)
| call_txn_commit (txn : MDB_txn_ptr)
| call_txn_abort (txn : MDB_txn_ptr)
| call_txn_reset (txn : MDB_txn_ptr)
| call_txn_renew (txn : MDB_txn_ptr).

(** The function body such a call runs. *)
Definition body `{lmdb_h} (k : wrapper_call) : prog error unit :=
  match k with
  | call_env_create env => env_create env
  | call_env_open env path flags mode => env_open env path flags mode
  | call_env_close env => env_close env
  | call_env_set_flags env flags onoff => env_set_flags env flags onoff
  | call_env_set_map_size env size => env_set_map_size env size
  | call_env_set_max_readers env count => env_set_max_readers env count
  | call_env_set_max_dbs env count => env_set_max_dbs env count
  | call_env_sync env force => env_sync env force
  | call_txn_begin env parent flags txn => txn_begin env parent flags txn
  | call_txn_commit txn => txn_commit txn
  | call_txn_abort txn => txn_abort txn
  | call_txn_reset txn => txn_reset txn
  | call_txn_renew txn => txn_renew txn
  end.

(** The engine call each function is there to make. *)
Definition entry_point (k : wrapper_call) : event :=
  match k with
  | call_env_create env => Event (mdb_env_create env)
  | call_env_open env path flags mode =>
      Event (mdb_env_open env path flags mode)
  | call_env_close env => Event (mdb_env_close env)
  | call_env_set_flags env flags onoff =>
      Event (mdb_env_set_flags env flags (if default true onoff then 1 else 0))
  | call_env_set_map_size env size => Event (mdb_env_set_mapsize env size)
  | call_env_set_max_readers env count =>
      Event (mdb_env_set_maxreaders env count)
  | call_env_set_max_dbs env count => Event (mdb_env_set_maxdbs env count)
  | call_env_sync env force =>
      Event (mdb_env_sync env (Z.b2z (default true force)))
  | call_txn_begin env parent flags txn =>
      Event (mdb_txn_begin env parent flags txn)
  | call_txn_commit txn => Event (mdb_txn_commit txn)
  | call_txn_abort txn => Event (mdb_txn_abort txn)
  | call_txn_reset txn => Event (mdb_txn_reset txn)
  | call_txn_renew txn => Event (mdb_txn_renew txn)
  end.

(** The statements [k1; k2; ...] of a caller, one after the other. *)
Fixpoint statements `{lmdb_h} (ks : list wrapper_call) : prog error unit :=
  match ks with
  | [] => mret ()
  | k :: ks => body k;; statements ks
  end.


(** ** Running programs *)

Lemma run_bind {E W A B} (h : engine W) (p : prog E A) (f : A → prog E B)
    (w : W) :
  run h (p ≫= f) w =
    let r := run h p w in
    match outcome_of r with
    | Normal a =>
        let r' := run h (f a) (state_of r) in
        Result (outcome_of r') (state_of r') (calls_of r ++ calls_of r')
    | Thrown e => Result (Thrown e) (state_of r) (calls_of r)
    end.
Proof.
  revert w. induction p as [a|e|X c k IH]; intros w; cbn.
  - by destruct (run h (f a) w).
  - done.
  - change (prog_bind f (k ?x)) with (k x ≫= f). rewrite IH. cbn.
    by destruct (outcome_of (run h (k (h X c w).1) (h X c w).2)).
Qed.

Lemma run_call {E W X} (h : engine W) (c : mdb_call X) (w : W) :
  run h (call (E:=E) c) w = Result (Normal (h _ c w).1) (h _ c w).2 [Event c].
Proof. done. Qed.

(** ** Strings *)

Lemma substring_0_all (s : string) (n : nat) :
  (String.length s ≤ n)%nat → String.substring 0 n s = s.
Proof.
  revert n. induction s as [|a s IH]; intros [|n] Hn; cbn in *; try done.
  - lia.
  - f_equal. apply IH. lia.
Qed.

Lemma substring_0_length (s : string) (n : nat) :
  String.length (String.substring 0 n s) = (n `min` String.length s)%nat.
Proof.
  revert n. induction s as [|a s IH]; intros [|n]; cbn; try done.
  by rewrite IH.
Qed.

(** ** The classifier *)

Section classifier.
Context `{lmdb_h}.

Lemma raise_throws (o : c_string) (rc : int) :
  ∃ e, raise o rc = Throw e ∧ code e = rc ∧ origin e = o.
Proof.
  unfold raise.
  destruct (rc =? MDB_KEYEXIST); [|destruct (rc =? MDB_NOTFOUND)]; eauto.
Qed.

(** C1. For every status code [rc] (so for every non-success one) and every
    origin, [raise] throws an exception whose [code()] is [rc]; its class is
    [key_exist_error] exactly when [rc = MDB_KEYEXIST], [not_found_error]
    exactly when [rc = MDB_NOTFOUND], and plain [error] in every other case,
    whether or not [rc] is a code the engine knows.  The two [case] labels
    of the [switch] are distinct constants. *)
Theorem raise_classifies (o : c_string) (rc : int) :
  MDB_KEYEXIST ≠ MDB_NOTFOUND →
  ∃ e, raise o rc = Throw e ∧ code e = rc ∧
       (dynamic_class e = class_key_exist_error ↔ rc = MDB_KEYEXIST) ∧
       (dynamic_class e = class_not_found_error ↔ rc = MDB_NOTFOUND) ∧
       (dynamic_class e = class_error ↔
          rc ≠ MDB_KEYEXIST ∧ rc ≠ MDB_NOTFOUND).
Proof.
  intros Hlabels. unfold raise.
  destruct (Z.eqb_spec rc MDB_KEYEXIST) as [->|Hk].
  - eexists; split; [done|]. cbn. intuition congruence.
  - destruct (Z.eqb_spec rc MDB_NOTFOUND) as [->|Hn].
    + eexists; split; [done|]. cbn. intuition congruence.
    + eexists; split; [done|]. cbn. intuition congruence.
Qed.

(** C2. [raise] never returns normally: for every origin and every code its
    body ends in a [throw], before any engine call, and so does every run
    of it. *)
Theorem raise_never_returns (o : c_string) (rc : int) :
  ∃ e, raise o rc = Throw e ∧
       ∀ (W : Type) (h : engine W) (w : W),
         run h (raise o rc) w = Result (Thrown e) w [].
Proof.
  destruct (raise_throws o rc) as (e & -> & _). by exists e.
Qed.

(** C9. Called with [MDB_SUCCESS], a code no wrapper passes to it, [raise]
    still throws: a plain [error] whose [code()] is [MDB_SUCCESS].
    [MDB_SUCCESS] is neither of the two [case] labels. *)
Theorem raise_on_success (o : c_string) :
  MDB_SUCCESS ≠ MDB_KEYEXIST →
  MDB_SUCCESS ≠ MDB_NOTFOUND →
  raise o MDB_SUCCESS = Throw (mk_error o MDB_SUCCESS) ∧
  dynamic_class (mk_error o MDB_SUCCESS) = class_error ∧
  code (mk_error o MDB_SUCCESS) = MDB_SUCCESS.
Proof.
  intros Hk Hn. unfold raise.
  destruct (Z.eqb_spec MDB_SUCCESS MDB_KEYEXIST); [done|].
  by destruct (Z.eqb_spec MDB_SUCCESS MDB_NOTFOUND).
Qed.

End classifier.

(** C7. Whichever of the three classes an exception is constructed in,
    [origin()] returns the origin given to the constructor and [code()] the
    status given to it.  Both are read from fields set once, by the
    constructor: the class has no member that writes them. *)
Theorem accessors_return_constructor_arguments (o : c_string) (rc : int) :
  (origin (mk_error o rc) = o ∧ code (mk_error o rc) = rc) ∧
  (origin (mk_key_exist_error o rc) = o ∧
   code (mk_key_exist_error o rc) = rc) ∧
  (origin (mk_not_found_error o rc) = o ∧
   code (mk_not_found_error o rc) = rc).
Proof. done. Qed.

(** ** The wrappers *)

Section wrappers.
Context `{lmdb_h}.

(** The shape shared by the ten checking wrappers. *)
Lemma check_status (c : mdb_call int) (name : c_string) :
  status_checked
    (rc ← call c;
     if negb (rc =? MDB_SUCCESS) then raise name rc else mret ())
    c name.
Proof.
  intros W h w rc. cbn. fold rc.
  destruct (raise_throws name rc) as (e & He & Hcode & Horigin).
  destruct (Z.eqb_spec rc MDB_SUCCESS) as [Hrc|Hrc]; cbn.
  - repeat split; try done.
  - rewrite He. cbn. repeat split; try done. by exists e.
Qed.

(** C3. Each of the ten fallible wrappers calls its engine entry point
    once, with the arguments it was given, and nothing else.  It returns
    normally exactly when that call returned [MDB_SUCCESS]; on any other
    status it throws, at once, what [raise] makes of the entry point's name
    and that status: an exception whose [code()] is the status. *)
Theorem fallible_wrappers_check_status :
  (∀ env, status_checked (env_create env)
            (mdb_env_create env) "mdb_env_create") ∧
  (∀ env path flags mode, status_checked (env_open env path flags mode)
            (mdb_env_open env path flags mode) "mdb_env_open") ∧
  (∀ env flags onoff, status_checked (env_set_flags env flags onoff)
            (mdb_env_set_flags env flags (if default true onoff then 1 else 0))
            "mdb_env_set_flags") ∧
  (∀ env size, status_checked (env_set_map_size env size)
            (mdb_env_set_mapsize env size) "mdb_env_set_mapsize") ∧
  (∀ env count, status_checked (env_set_max_readers env count)
            (mdb_env_set_maxreaders env count) "mdb_env_set_maxreaders") ∧
  (∀ env count, status_checked (env_set_max_dbs env count)
            (mdb_env_set_maxdbs env count) "mdb_env_set_maxdbs") ∧
  (∀ env force, status_checked (env_sync env force)
            (mdb_env_sync env (Z.b2z (default true force))) "mdb_env_sync") ∧
  (∀ env parent flags txn, status_checked (txn_begin env parent flags txn)
            (mdb_txn_begin env parent flags txn) "mdb_txn_begin") ∧
  (∀ txn, status_checked (txn_commit txn)
            (mdb_txn_commit txn) "mdb_txn_commit") ∧
  (∀ txn, status_checked (txn_renew txn)
            (mdb_txn_renew txn) "mdb_txn_renew").
Proof. repeat apply conj; intros; apply check_status. Qed.

End wrappers.

Lemma call_forwarded (c : mdb_call unit) : forwarded (call c) c.
Proof. intros W h w. cbn. by destruct (h _ c w).1. Qed.

(** C4. [env_close], [txn_abort] and [txn_reset] never throw: whatever the
    engine does and whatever handle they are given, each makes its one
    engine call, which has no status to return, and returns normally. *)
Theorem close_abort_reset_never_throw :
  (∀ env, forwarded (env_close env) (mdb_env_close env)) ∧
  (∀ txn, forwarded (txn_abort txn) (mdb_txn_abort txn)) ∧
  (∀ txn, forwarded (txn_reset txn) (mdb_txn_reset txn)).
Proof. repeat apply conj; intros; apply call_forwarded. Qed.

(** C10. Leaving out [onoff] is passing [true], and the engine is handed 1;
    leaving out [force] is passing [true], and the engine is handed 1, a
    forced flush. *)
Theorem default_arguments_are_true `{lmdb_h}
    (env : MDB_env_ptr) (flags : unsigned_int) :
  env_set_flags env flags None = env_set_flags env flags (Some true) ∧
  env_sync env None = env_sync env (Some true) ∧
  (∀ (W : Type) (h : engine W) (w : W),
     calls_of (run h (env_set_flags env flags None) w)
       = [Event (mdb_env_set_flags env flags 1)]) ∧
  (∀ (W : Type) (h : engine W) (w : W),
     calls_of (run h (env_sync env None) w) = [Event (mdb_env_sync env 1)]).
Proof.
  repeat apply conj; try done; intros.
  - apply (check_status (mdb_env_set_flags env flags 1) "mdb_env_set_flags").
  - apply (check_status (mdb_env_sync env 1) "mdb_env_sync").
Qed.

(** ** Handles *)

(** C5, as the code has it.  [env_close], [txn_commit] and [txn_abort]
    receive the handle as a plain pointer, by value, and pass it to the
    engine once per call.  The wrapper keeps no record of the handles it has
    released and the caller's copy is as it was, so a second close, or a
    commit or abort after a commit or abort, goes through to the engine with
    the same handle. *)
Theorem handles_are_not_consumed `{lmdb_h} {W : Type} (h : engine W) (w : W)
    (env : MDB_env_ptr) (txn : MDB_txn_ptr) :
  calls_of (run h (env_close env) w) = [Event (mdb_env_close env)] ∧
  calls_of (run h (txn_commit txn) w) = [Event (mdb_txn_commit txn)] ∧
  calls_of (run h (txn_abort txn) w) = [Event (mdb_txn_abort txn)] ∧
  (let r := run h (env_close env;; env_close env) w in
   outcome_of r = Normal () ∧
   calls_of r = [Event (mdb_env_close env); Event (mdb_env_close env)]) ∧
  (let r := run h (txn_abort txn;; txn_abort txn) w in
   outcome_of r = Normal () ∧
   calls_of r = [Event (mdb_txn_abort txn); Event (mdb_txn_abort txn)]) ∧
  calls_of (run h (txn_abort txn;; txn_commit txn) w)
    = [Event (mdb_txn_abort txn); Event (mdb_txn_commit txn)] ∧
  ((h _ (mdb_txn_commit txn) w).1 = MDB_SUCCESS →
   calls_of (run h (txn_commit txn;; txn_abort txn) w)
     = [Event (mdb_txn_commit txn); Event (mdb_txn_abort txn)] ∧
   calls_of (run h (txn_commit txn;; txn_commit txn) w)
     = [Event (mdb_txn_commit txn); Event (mdb_txn_commit txn)]).
Proof.
  pose proof (check_status (mdb_txn_commit txn) "mdb_txn_commit") as Hcommit.
  change (call (mdb_txn_commit txn) ≫= _) with (txn_commit txn) in Hcommit.
  repeat apply conj; try done.
  - apply Hcommit.
  - cbn. by destruct (h _ (mdb_env_close env) (h _ (mdb_env_close env) w).2).1.
  - cbn. by destruct (h _ (mdb_txn_abort txn) (h _ (mdb_txn_abort txn) w).2).1.
  - rewrite run_bind. cbn zeta.
    by destruct (Hcommit W h (state_of (run h (txn_abort txn) w))) as (-> & _).
  - intros Hrc. rewrite !run_bind. cbn zeta.
    destruct (Hcommit W h w) as (Hcalls & _ & Hnormal & _).
    apply Hnormal in Hrc. rewrite Hrc, Hcalls. split; [done|].
    by destruct (Hcommit W h (state_of (run h (txn_commit txn) w))) as (-> & _).
Qed.

(** ** The message *)

Section message.
Context `{lmdb_h}.

Lemma message_of_eq (e : error) (t : thread) (σ : gmap thread c_string) :
  message_of e t σ = String.substring 0 (buffer_size - 1) (formatted e).
Proof.
  unfold message_of, what, deref, read_buffer. cbn [fst snd].
  by rewrite lookup_insert_eq.
Qed.

(** C8, as the code has it.  The message is the text made of the origin,
    then a colon and a space, then [mdb_strerror] of the code, fitted to
    the 1024-byte buffer: its first 1023 bytes, so never longer than that.
    A text of at most 1023 bytes is the message as it is. *)
Theorem what_message (e : error) (t : thread) (σ : gmap thread c_string) :
  message_of e t σ = String.substring 0 1023 (formatted e) ∧
  (String.length (message_of e t σ) ≤ 1023)%nat ∧
  ((String.length (formatted e) ≤ 1023)%nat → message_of e t σ = formatted e).
Proof.
  rewrite message_of_eq. split; [done|]. split.
  - rewrite substring_0_length. apply Nat.le_min_l.
  - intros Hfits. by apply substring_0_all.
Qed.

(** C6, as the code has it.  The message read right after [what()] is a
    function of that exception's own origin and code.  It sits in a buffer
    that all exceptions share within a thread: a [what()] on another thread
    leaves it alone, a later [what()] on the same thread overwrites it, and
    the pointer obtained first then reads the later exception's message. *)
Theorem what_buffer_is_per_thread (e1 e2 : error) (t1 t2 : thread)
    (σ : gmap thread c_string) :
  let r1 := what e1 t1 σ in
  let r2 := what e2 t2 r1.2 in
  deref r1.1 r1.2 = String.substring 0 1023 (formatted e1) ∧
  (t1 ≠ t2 → message_survives e1 e2 t1 t2 σ) ∧
  (t1 = t2 → deref r1.1 r2.2 = String.substring 0 1023 (formatted e2)).
Proof.
  cbn zeta. split; [apply message_of_eq|]. split.
  - intros Hne. unfold message_survives, what, deref, read_buffer.
    cbn [fst snd]. by rewrite lookup_insert_ne by congruence.
  - intros <-. unfold what, deref, read_buffer. cbn [fst snd].
    by rewrite lookup_insert_eq.
Qed.

End message.

(** ** The statements at concrete inputs *)

Example raise_key_exists :
  @raise sample_header "mdb_put" (-30799)
    = Throw (mk_key_exist_error "mdb_put" (-30799)).
Proof. reflexivity. Qed.

Example raise_unknown_code :
  @raise sample_header "mdb_env_open" 123456789
    = Throw (mk_error "mdb_env_open" 123456789).
Proof. reflexivity. Qed.

Example env_open_denied :
  run scripted (@env_open sample_header 5 "/tmp/db" 0 420) [13]
    = Result (Thrown (mk_error "mdb_env_open" 13)) []
             [Event (mdb_env_open 5 "/tmp/db" 0 420)].
Proof. reflexivity. Qed.

Example txn_begin_then_commit :
  run scripted (@txn_begin sample_header 5 0 0 64;;
                @txn_commit sample_header 7) [0; -30798]
    = Result (Thrown (mk_not_found_error "mdb_txn_commit" (-30798))) []
             [Event (mdb_txn_begin 5 0 0 64); Event (mdb_txn_commit 7)].
Proof. reflexivity. Qed.

Lemma raise_classifies_witness :
  @MDB_KEYEXIST sample_header ≠ @MDB_NOTFOUND sample_header ∧
  ∃ e, @raise sample_header "mdb_put" (-30799) = Throw e ∧
       code e = -30799 ∧
       (dynamic_class e = class_key_exist_error ↔ -30799 = -30799) ∧
       (dynamic_class e = class_not_found_error ↔ -30799 = -30798) ∧
       (dynamic_class e = class_error ↔ -30799 ≠ -30799 ∧ -30799 ≠ -30798).
Proof.
  split; [discriminate|].
  apply (@raise_classifies sample_header "mdb_put" (-30799)). discriminate.
Defined.

Lemma raise_on_success_witness :
  @MDB_SUCCESS sample_header ≠ @MDB_KEYEXIST sample_header ∧
  @MDB_SUCCESS sample_header ≠ @MDB_NOTFOUND sample_header ∧
  @raise sample_header "mdb_env_sync" 0 = Throw (mk_error "mdb_env_sync" 0).
Proof.
  split; [discriminate|]. split; [discriminate|].
  apply (@raise_on_success sample_header "mdb_env_sync"); discriminate.
Defined.

Lemma fallible_wrappers_check_status_witness :
  (scripted _ (mdb_env_open 5 "/tmp/db" 0 420) [13]).1
    ≠ @MDB_SUCCESS sample_header ∧
  ∃ e, outcome_of (run scripted (@env_open sample_header 5 "/tmp/db" 0 420)
                       [13]) = Thrown e ∧
       @raise sample_header "mdb_env_open" 13 = Throw e ∧
       code e = 13 ∧ origin e = "mdb_env_open".
Proof.
  split; [discriminate|].
  destruct (@fallible_wrappers_check_status sample_header)
    as (_ & Hopen & _).
  apply (Hopen 5 "/tmp/db" 0 420 _ scripted [13]). discriminate.
Defined.

(** C5, as the claim has it, fails: a program that closes the same
    environment twice, or commits and then aborts the same transaction, is
    an ordinary program, and both calls reach the engine. *)
Lemma second_release_reaches_engine :
  ¬ closes_at_most_once (env_close 5;; env_close 5) ∧
  ¬ ends_at_most_once (@txn_commit sample_header 7;; txn_abort 7).
Proof.
  split.
  - intros Hc. specialize (Hc _ scripted [] 5). vm_compute in Hc. lia.
  - intros Hc. specialize (Hc _ scripted [] 7). vm_compute in Hc. lia.
Qed.

Lemma handles_are_not_consumed_witness :
  (scripted _ (mdb_txn_commit 7) []).1 = @MDB_SUCCESS sample_header ∧
  calls_of (run scripted (@txn_commit sample_header 7;; txn_abort 7) [])
    = [Event (mdb_txn_commit 7); Event (mdb_txn_abort 7)].
Proof.
  split; [reflexivity|].
  destruct (@handles_are_not_consumed sample_header _ scripted [] 5 7)
    as (_ & _ & _ & _ & _ & _ & Hcommit).
  apply Hcommit. reflexivity.
Defined.

(** C6, as the claim has it, fails on one thread: after [what()] on a second
    exception the pointer obtained from the first reads another message. *)
Lemma what_overwrites_earlier_message :
  ¬ @message_survives sample_header
      (mk_error "mdb_env_open" 13)
      (mk_not_found_error "mdb_txn_renew" (-30798)) 0%nat 0%nat ∅.
Proof. unfold message_survives. vm_compute. discriminate. Qed.

Lemma what_buffer_is_per_thread_witness :
  (0 ≠ 1)%nat ∧
  @message_survives sample_header
    (mk_error "mdb_env_open" 13)
    (mk_not_found_error "mdb_txn_renew" (-30798)) 0%nat 1%nat ∅.
Proof.
  split; [discriminate|].
  apply (@what_buffer_is_per_thread sample_header). discriminate.
Defined.

(** C8, as the claim has it, fails for an origin of 1100 bytes: the message
    is not the whole text. *)
Lemma what_cuts_long_message :
  @message_of sample_header (mk_error long_origin 0) 0%nat ∅
    ≠ @formatted sample_header (mk_error long_origin 0).
Proof.
  intros Heq. apply (f_equal String.length) in Heq.
  vm_compute in Heq. discriminate.
Qed.

Lemma what_message_witness :
  Nat.le
    (String.length (@formatted sample_header (mk_error "mdb_env_open" 13)))
    1023 ∧
  @message_of sample_header (mk_error "mdb_env_open" 13) 0%nat ∅
    = "mdb_env_open: Unknown error".
Proof.
  split; [vm_compute; lia|].
  apply (@what_message sample_header (mk_error "mdb_env_open" 13) 0%nat ∅).
  vm_compute; lia.
Defined.

(** ** The interface as a whole: what every function does *)

Lemma substring_0_app_l (a b : string) (n : nat) :
  (String.length a ≤ n)%nat →
  String.substring 0 n (a +:+ b)
    = a +:+ String.substring 0 (n - String.length a) b.
Proof.
  revert n. induction a as [|x a IH]; intros n Hn; cbn in Hn.
  - change ("" +:+ ?s) with s. by rewrite Nat.sub_0_r.
  - destruct n as [|n]; [lia|].
    change (String x a +:+ ?s) with (String x (a +:+ s)).
    cbn. f_equal. apply IH. lia.
Qed.

Lemma substring_0_app_r (a b : string) (n : nat) :
  (n ≤ String.length a)%nat →
  String.substring 0 n (a +:+ b) = String.substring 0 n a.
Proof.
  revert n. induction a as [|x a IH]; intros n Hn; cbn in Hn.
  - assert (n = 0%nat) as -> by lia. change ("" +:+ b) with b. by destruct b.
  - destruct n as [|n]; [done|].
    change (String x a +:+ ?s) with (String x (a +:+ s)).
    cbn. f_equal. apply IH. lia.
Qed.

Lemma mdb_name_short {X} (c : mdb_call X) :
  (String.length (mdb_name c) ≤ 22)%nat.
Proof. destruct c; cbn; lia. Qed.

Section interface.
Context `{lmdb_h}.

(** Every function is one of two shapes: a checked call that throws under
    the C name of the entry point it called, or a plain forwarded call. *)
Lemma body_shape (k : wrapper_call) :
  (∃ c : mdb_call int,
     entry_point k = Event c ∧ status_checked (body k) c (mdb_name c)) ∨
  (∃ c : mdb_call unit, entry_point k = Event c ∧ forwarded (body k) c).
Proof.
  destruct k;
    first [ left; eexists; split; [reflexivity|]; apply check_status
          | right; eexists; split; [reflexivity|]; apply call_forwarded ].
Qed.

Lemma body_calls (k : wrapper_call) {W} (h : engine W) (w : W) :
  calls_of (run h (body k) w) = [entry_point k].
Proof.
  destruct (body_shape k) as [(c & -> & Hc)|(c & -> & Hc)].
  - apply Hc.
  - apply Hc.
Qed.

Lemma body_thrown (k : wrapper_call) {W} (h : engine W) (w : W) (e : error) :
  outcome_of (run h (body k) w) = Thrown e →
  ∃ c : mdb_call int,
    entry_point k = Event c ∧ (h _ c w).1 ≠ MDB_SUCCESS ∧
    code e = (h _ c w).1 ∧ origin e = mdb_name c ∧
    raise (mdb_name c) (h _ c w).1 = Throw e.
Proof.
  intros Hthrown.
  destruct (body_shape k) as [(c & Hk & Hc)|(c & _ & Hc)].
  - exists c. destruct (Hc W h w) as (_ & _ & Hnormal & Hfail).
    destruct (decide ((h _ c w).1 = MDB_SUCCESS)) as [Hrc|Hrc].
    + apply Hnormal in Hrc. congruence.
    + destruct (Hfail Hrc) as (e' & He' & Hraise & Hcode & Horigin).
      assert (e' = e) as -> by congruence. done.
  - destruct (Hc W h w) as (Hnormal & _). congruence.
Qed.

Lemma statements_cons (k : wrapper_call) (ks : list wrapper_call)
    {W} (h : engine W) (w : W) :
  run h (statements (k :: ks)) w =
    match outcome_of (run h (body k) w) with
    | Normal _ =>
        let r := run h (statements ks) (state_of (run h (body k) w)) in
        Result (outcome_of r) (state_of r) (entry_point k :: calls_of r)
    | Thrown e =>
        Result (Thrown e) (state_of (run h (body k) w)) [entry_point k]
    end.
Proof.
  cbn [statements]. rewrite run_bind. cbn zeta. rewrite body_calls.
  by destruct (outcome_of (run h (body k) w)).
Qed.

Lemma statements_thrown (ks : list wrapper_call) {W} (h : engine W) (w : W)
    (e : error) :
  outcome_of (run h (statements ks) w) = Thrown e →
  ∃ ks1 k ks2,
    ks = (ks1 ++ k :: ks2)%list ∧
    outcome_of (run h (statements ks1) w) = Normal () ∧
    outcome_of (run h (body k) (state_of (run h (statements ks1) w)))
      = Thrown e ∧
    calls_of (run h (statements ks) w) = entry_point <$> (ks1 ++ [k])%list.
Proof.
  revert w. induction ks as [|k ks IH]; intros w; [done|].
  rewrite statements_cons.
  destruct (outcome_of (run h (body k) w)) as [[]|e'] eqn:Hk; cbn.
  - intros (ks1 & k' & ks2 & -> & Hpre & Hk' & Hcalls)%IH.
    exists (k :: ks1), k', ks2. rewrite statements_cons, Hk. cbn.
    by rewrite Hcalls.
  - intros [= ->]. by exists [], k, ks.
Qed.

Lemma statements_normal (ks : list wrapper_call) {W} (h : engine W) (w : W) :
  outcome_of (run h (statements ks) w) = Normal () →
  calls_of (run h (statements ks) w) = entry_point <$> ks.
Proof.
  revert w. induction ks as [|k ks IH]; intros w; [done|].
  rewrite statements_cons.
  destruct (outcome_of (run h (body k) w)) as [[]|e'] eqn:Hk; cbn; [|done].
  intros Hrest. by rewrite IH.
Qed.

(** X1. A row of calls to the interface stops at the first function that
    throws: the engine has then received the call of every function up to
    and including that one, in order, and of none after it.  If no function
    throws, the engine has received all of them. *)
Theorem statements_stop_at_first_throw (ks : list wrapper_call)
    {W} (h : engine W) (w : W) :
  let r := run h (statements ks) w in
  calls_of r `prefix_of` (entry_point <$> ks) ∧
  (outcome_of r = Normal () → calls_of r = entry_point <$> ks) ∧
  (∀ e, outcome_of r = Thrown e →
     ∃ ks1 k ks2,
       ks = (ks1 ++ k :: ks2)%list ∧
       outcome_of (run h (statements ks1) w) = Normal () ∧
       outcome_of (run h (body k) (state_of (run h (statements ks1) w)))
         = Thrown e ∧
       calls_of r = entry_point <$> (ks1 ++ [k])%list).
Proof.
  cbn zeta. split; [|split].
  - destruct (outcome_of (run h (statements ks) w)) as [[]|e] eqn:Hr.
    + by rewrite statements_normal.
    + destruct (statements_thrown ks h w e Hr)
        as (ks1 & k & ks2 & -> & _ & _ & ->).
      rewrite !fmap_app. apply prefix_app, prefix_cons, prefix_nil.
  - apply statements_normal.
  - apply statements_thrown.
Qed.

(** X2. An exception that comes out of the interface, from one call or
    from a row of them, never carries [MDB_SUCCESS]; it is the exception
    [raise] makes of its own origin and code, so its class is the one its
    code calls for; and its origin is the C name of the last entry point
    the engine was called on. *)
Theorem escaping_exception_invariant (ks : list wrapper_call)
    {W} (h : engine W) (w : W) (e : error) :
  outcome_of (run h (statements ks) w) = Thrown e →
  code e ≠ MDB_SUCCESS ∧
  raise (origin e) (code e) = Throw e ∧
  ∃ c : mdb_call int,
    last (calls_of (run h (statements ks) w)) = Some (Event c) ∧
    origin e = mdb_name c.
Proof.
  intros (ks1 & k & ks2 & -> & _ & Hk & ->)%statements_thrown.
  apply body_thrown in Hk as (c & Hc & Hrc & Hcode & Horigin & Hraise).
  rewrite Hcode, Horigin. repeat split; try done.
  exists c. rewrite fmap_app. simpl. by rewrite last_snoc, Hc.
Qed.


End interface.

(** X4. [txn_env] makes its one engine call and hands back what the engine
    answered, unchanged and unchecked: it never throws, a null answer
    included. *)
Theorem txn_env_returns_engine_value (txn : MDB_txn_ptr)
    {W} (h : engine W) (w : W) :
  let answer := h _ (mdb_txn_env txn) w in
  outcome_of (run h (txn_env txn) w) = Normal answer.1 ∧
  state_of (run h (txn_env txn) w) = answer.2 ∧
  calls_of (run h (txn_env txn) w) = [Event (mdb_txn_env txn)] ∧
  (answer.1 = 0 → outcome_of (run h (txn_env txn) w) = Normal 0).
Proof. cbn. repeat split. by intros ->. Qed.

(** X5. The exception [raise] throws tells the origin and the code it was
    raised with: two calls of [raise] that throw the same exception were
    given the same origin and the same code. *)
Theorem raise_injective `{lmdb_h} (o1 o2 : c_string) (rc1 rc2 : int) :
  raise o1 rc1 = raise o2 rc2 → o1 = o2 ∧ rc1 = rc2.
Proof.
  intros Heq.
  destruct (raise_throws o1 rc1) as (e1 & Hr1 & Hcode1 & Horigin1).
  destruct (raise_throws o2 rc2) as (e2 & Hr2 & Hcode2 & Horigin2).
  rewrite Hr1, Hr2 in Heq. injection Heq as ->. by subst.
Qed.

(** X6. Whether the engine is told on or off, forced or not, it is told so
    as 0 or 1: [false] reaches [mdb_env_set_flags] and [mdb_env_sync] as 0,
    and no call hands either of them anything but 0 or 1. *)
Theorem bool_arguments_reach_engine_as_0_or_1 `{lmdb_h}
    (env : MDB_env_ptr) (flags : unsigned_int) {W} (h : engine W) (w : W) :
  calls_of (run h (env_set_flags env flags (Some false)) w)
    = [Event (mdb_env_set_flags env flags 0)] ∧
  calls_of (run h (env_sync env (Some false)) w)
    = [Event (mdb_env_sync env 0)] ∧
  (∀ onoff, ∃ i, 0 ≤ i ≤ 1 ∧
     calls_of (run h (env_set_flags env flags onoff) w)
       = [Event (mdb_env_set_flags env flags i)]) ∧
  (∀ force, ∃ i, 0 ≤ i ≤ 1 ∧
     calls_of (run h (env_sync env force) w) = [Event (mdb_env_sync env i)]).
Proof.
  assert (∀ onoff, calls_of (run h (env_set_flags env flags onoff) w)
            = [Event (mdb_env_set_flags env flags
                        (if default true onoff then 1 else 0))]) as Hflags.
  { intros onoff. apply (check_status _ "mdb_env_set_flags"). }
  assert (∀ force, calls_of (run h (env_sync env force) w)
            = [Event (mdb_env_sync env (Z.b2z (default true force)))])
    as Hsync.
  { intros force. apply (check_status _ "mdb_env_sync"). }
  repeat apply conj.
  - apply Hflags.
  - apply Hsync.
  - intros onoff. eexists. split; [|apply Hflags].
    destruct onoff as [[]|]; cbn; lia.
  - intros force. eexists. split; [|apply Hsync].
    destruct force as [[]|]; cbn; lia.
Qed.

(** ** The message, at its bounds *)

Lemma substring_origin_colon (o s : string) :
  (String.length o + 2 ≤ 1023)%nat →
  String.substring 0 1023 (o +:+ ": " +:+ s)
    = o +:+ ": " +:+ String.substring 0 (1021 - String.length o) s.
Proof.
  intros Ho. rewrite substring_0_app_l by lia. f_equal.
  rewrite substring_0_app_l by (cbn; lia). f_equal. f_equal. cbn. lia.
Qed.

Section message_bounds.
Context `{lmdb_h}.

(** X7. [what()] writes the calling thread's buffer and no other, and
    always returns that buffer's address; called again on the same
    exception it leaves everything as the first call left it. *)
Theorem what_writes_own_buffer_only (e : error) (t : thread)
    (σ : gmap thread c_string) :
  (what e t σ).1 = buffer_of t ∧
  (∀ t', t' ≠ t → read_buffer (what e t σ).2 t' = read_buffer σ t') ∧
  what e t (what e t σ).2 = what e t σ.
Proof.
  unfold what, read_buffer. cbn [fst snd]. repeat apply conj; [done|..].
  - intros t' Ht'. by rewrite lookup_insert_ne by congruence.
  - by rewrite insert_insert_eq.
Qed.

(** X8. An origin of at most 1021 bytes is in the message whole, followed
    by the colon and the space; what is cut, if anything, is the end of the
    engine's description. *)
Theorem what_keeps_short_origin (e : error) (t : thread)
    (σ : gmap thread c_string) :
  (String.length (origin e) + 2 ≤ 1023)%nat →
  message_of e t σ
    = origin e +:+ ": " +:+
        String.substring 0 (1021 - String.length (origin e))
                         (mdb_strerror (code e)).
Proof.
  intros Ho. rewrite message_of_eq. by apply substring_origin_colon.
Qed.

(** X9. An origin of 1023 bytes or more fills the buffer by itself: the
    message is the first 1023 bytes of the origin, with no separator and
    nothing of the engine's description, so exceptions with that origin
    have the same message whatever their codes. *)
Theorem what_long_origin_hides_code (e e' : error) (t t' : thread)
    (σ σ' : gmap thread c_string) :
  (1023 ≤ String.length (origin e))%nat →
  message_of e t σ = String.substring 0 1023 (origin e) ∧
  (origin e' = origin e → message_of e' t' σ' = message_of e t σ).
Proof.
  intros Ho.
  assert (∀ e0 t0 σ0, origin e0 = origin e →
            message_of e0 t0 σ0 = String.substring 0 1023 (origin e)) as Hm.
  { intros e0 t0 σ0 He0. rewrite message_of_eq. unfold formatted.
    rewrite He0. by apply substring_0_app_r. }
  split; [by apply Hm|]. intros He'. by rewrite !Hm.
Qed.

(** X10. The message of an exception thrown by a function of the interface
    always begins with the C name of the entry point that failed, a colon
    and a space, and goes on with the engine's description of the status
    that entry point returned, as far as the buffer has room. *)
Theorem thrown_message_names_entry_point (k : wrapper_call)
    {W} (h : engine W) (w : W) (e : error) (t : thread)
    (σ : gmap thread c_string) :
  outcome_of (run h (body k) w) = Thrown e →
  ∃ c : mdb_call int,
    calls_of (run h (body k) w) = [Event c] ∧
    message_of e t σ
      = mdb_name c +:+ ": " +:+
          String.substring 0 (1021 - String.length (mdb_name c))
                           (mdb_strerror (h _ c w).1).
Proof.
  intros (c & Hc & _ & Hcode & Horigin & _)%body_thrown.
  exists c. rewrite body_calls, Hc. split; [done|].
  rewrite message_of_eq. unfold formatted. rewrite Hcode, Horigin.
  apply substring_origin_colon. pose proof (mdb_name_short c). lia.
Qed.

End message_bounds.

(** ** The interface as a whole, at concrete inputs *)

(** Create, open, close, where the engine refuses the open with status 13:
    the close is never reached. *)
Example open_refused_skips_close :
  run scripted
      (@statements sample_header
         [call_env_create 64; call_env_open 5 "/tmp/db" 0 420;
          call_env_close 5])
      [0; 13]
    = Result (Thrown (mk_error "mdb_env_open" 13)) []
             [Event (mdb_env_create 64);
              Event (mdb_env_open 5 "/tmp/db" 0 420)].
Proof. reflexivity. Qed.

Lemma statements_stop_at_first_throw_witness :
  outcome_of (run scripted
                (@statements sample_header
                   [call_env_create 64; call_env_open 5 "/tmp/db" 0 420;
                    call_env_close 5])
                [0; 13])
    = Thrown (mk_error "mdb_env_open" 13) ∧
  ∃ ks1 k ks2,
    [call_env_create 64; call_env_open 5 "/tmp/db" 0 420; call_env_close 5]
      = (ks1 ++ k :: ks2)%list ∧
    outcome_of (run scripted (@statements sample_header ks1) [0; 13])
      = Normal () ∧
    outcome_of (run scripted (@body sample_header k)
                  (state_of (run scripted (@statements sample_header ks1)
                               [0; 13])))
      = Thrown (mk_error "mdb_env_open" 13) ∧
    calls_of (run scripted
                (@statements sample_header
                   [call_env_create 64; call_env_open 5 "/tmp/db" 0 420;
                    call_env_close 5])
                [0; 13])
      = entry_point <$> (ks1 ++ [k])%list.
Proof.
  split; [reflexivity|].
  destruct (@statements_stop_at_first_throw sample_header
              [call_env_create 64; call_env_open 5 "/tmp/db" 0 420;
               call_env_close 5] _ scripted [0; 13]) as (_ & _ & Hthrown).
  apply Hthrown. reflexivity.
Defined.

Lemma escaping_exception_invariant_witness :
  outcome_of (run scripted
                (@statements sample_header
                   [call_txn_begin 5 0 0 64; call_txn_commit 7])
                [0; -30799])
    = Thrown (mk_key_exist_error "mdb_txn_commit" (-30799)) ∧
  code (mk_key_exist_error "mdb_txn_commit" (-30799))
    ≠ @MDB_SUCCESS sample_header ∧
  @raise sample_header "mdb_txn_commit" (-30799)
    = Throw (mk_key_exist_error "mdb_txn_commit" (-30799)).
Proof.
  split; [reflexivity|].
  destruct (@escaping_exception_invariant sample_header
              [call_txn_begin 5 0 0 64; call_txn_commit 7] _ scripted
              [0; -30799] (mk_key_exist_error "mdb_txn_commit" (-30799))
              eq_refl) as (Hcode & Hraise & _).
  split; [exact Hcode | exact Hraise].
Defined.


Lemma txn_env_returns_engine_value_witness :
  (scripted _ (mdb_txn_env 0) []).1 = 0 ∧
  outcome_of (run scripted (txn_env 0) []) = Normal 0.
Proof.
  split; [reflexivity|].
  destruct (txn_env_returns_engine_value 0 scripted [])
    as (_ & _ & _ & Hnull).
  apply Hnull. reflexivity.
Defined.

Lemma raise_injective_witness :
  @raise sample_header "mdb_put" (-30799)
    = @raise sample_header "mdb_put" (-30799) ∧
  "mdb_put" = "mdb_put" ∧ -30799 = -30799.
Proof.
  split; [reflexivity|].
  apply (@raise_injective sample_header). reflexivity.
Defined.

Lemma what_writes_own_buffer_only_witness :
  (1 ≠ 0)%nat ∧
  read_buffer
    (@what sample_header (mk_error "mdb_env_open" 13) 0%nat
       {[ 1%nat := "mdb_txn_begin: Unknown error" ]}).2 1%nat
    = read_buffer {[ 1%nat := "mdb_txn_begin: Unknown error" ]} 1%nat.
Proof.
  split; [discriminate|].
  destruct (@what_writes_own_buffer_only sample_header
              (mk_error "mdb_env_open" 13) 0%nat
              {[ 1%nat := "mdb_txn_begin: Unknown error" ]})
    as (_ & Hframe & _).
  apply Hframe. discriminate.
Defined.

Lemma what_keeps_short_origin_witness :
  Nat.le (String.length (origin (mk_error "mdb_env_open" 13)) + 2) 1023 ∧
  @message_of sample_header (mk_error "mdb_env_open" 13) 0%nat ∅
    = "mdb_env_open: Unknown error".
Proof.
  split; [vm_compute; lia|].
  apply (@what_keeps_short_origin sample_header
           (mk_error "mdb_env_open" 13) 0%nat ∅).
  vm_compute; lia.
Defined.

Lemma what_long_origin_hides_code_witness :
  Nat.le 1023 (String.length (origin (mk_error long_origin 0))) ∧
  @message_of sample_header (mk_not_found_error long_origin (-30798)) 1%nat ∅
    = @message_of sample_header (mk_error long_origin 0) 0%nat ∅.
Proof.
  split; [vm_compute; lia|].
  destruct (@what_long_origin_hides_code sample_header
              (mk_error long_origin 0)
              (mk_not_found_error long_origin (-30798)) 0%nat 1%nat ∅ ∅)
    as (_ & Hsame).
  - vm_compute; lia.
  - apply Hsame. reflexivity.
Defined.

Lemma thrown_message_names_entry_point_witness :
  outcome_of (run scripted (@body sample_header (call_txn_renew 7))
                [-30798])
    = Thrown (mk_not_found_error "mdb_txn_renew" (-30798)) ∧
  ∃ c : mdb_call int,
    calls_of (run scripted (@body sample_header (call_txn_renew 7))
                [-30798]) = [Event c] ∧
    @message_of sample_header
      (mk_not_found_error "mdb_txn_renew" (-30798)) 0%nat ∅
      = mdb_name c +:+ ": " +:+
          String.substring 0 (1021 - String.length (mdb_name c))
            (@mdb_strerror sample_header (scripted _ c [-30798]).1).
Proof.
  split; [reflexivity|].
  apply (@thrown_message_names_entry_point sample_header
           (call_txn_renew 7) _ scripted [-30798]).
  reflexivity.
Defined.

Example renew_not_found_message :
  @message_of sample_header
    (mk_not_found_error "mdb_txn_renew" (-30798)) 0%nat ∅
    = "mdb_txn_renew: MDB_NOTFOUND: No matching key/data pair found".
Proof. reflexivity. Qed.
